(** * graphql_ws/protocol.py: the graphql-transport-ws message envelope

    A shallow embedding of [src/graphql_ws/protocol.py]: the message kind
    enumeration [GQLMsgType], the read-only mapping [OperationMessagePayload]
    and the envelope [OperationMessage] with its two entry points [load] and
    [loads].

    The module calls two third-party libraries, [json] and [graphql]
    (graphql-core).  They are interfaces of this development (the classes
    [JsonLibrary] and [GraphQLLibrary]): every theorem holds for any decoder
    and any grammar. *)

From Stdlib Require Import String Ascii List Bool ZArith QArith Lia Permutation.
Import ListNotations.
Local Close Scope Q_scope.
Local Open Scope string_scope.
Local Open Scope list_scope.

(** ** Protocol constants (lines 8-13) *)

Definition WS_ERROR_UNAUTHORIZED : Z := 4401.
Definition WS_ERROR_CONNECTION_INIT_TIMEOUT : Z := 4408.
Definition WS_ERROR_ID_ALREADY_EXISTS : Z := 4409.
Definition WS_ERROR_TOO_MANY_INIT_REQUESTS : Z := 4429.
Definition WS_INTERNAL_ERROR : Z := 1011.
Definition WS_PROTOCOL : string := "graphql-transport-ws".

(** ** Python values

    The objects that reach this module are the ones [json.loads] builds:
    [None], [bool], [int], [float], [str], [list] and [dict] with [str] keys.
    A [dict] keeps its keys in insertion order, so it is an association list;
    its keys are pairwise distinct ([dict_keys_unique] below). *)

(** A [float].  Only [==] is ever applied to one, so a finite float is the
    rational it denotes (0.0 and -0.0, which [==] identifies, are both
    [FFinite 0]).  [nan] is the one value that is not equal to itself; CPython
    compares the items of containers with "same object, or [==]", so a [nan]
    carries the identity of its object ([json.loads] hands out the single
    object [json.decoder.NaN] for every [NaN] it reads). *)
Inductive pyfloat : Type :=
| FFinite (q : Q)
| FInf (negative : bool)
| FNaN (obj : nat).

Unset Elimination Schemes.
Inductive value : Type :=
| VNone
| VBool (b : bool)
| VInt (n : Z)
| VFloat (f : pyfloat)
| VStr (s : string)
| VList (items : list value)
| VDict (entries : list (string * value)).
Set Elimination Schemes.

Definition dict : Type := list (string * value).

(** Induction over a value gives the property for the members of a list and
    for the values of a dict. *)
Fixpoint value_ind (P : value -> Prop)
    (HNone : P VNone)
    (HBool : forall b, P (VBool b))
    (HInt : forall n, P (VInt n))
    (HFloat : forall f, P (VFloat f))
    (HStr : forall s, P (VStr s))
    (HList : forall items, Forall P items -> P (VList items))
    (HDict : forall entries : dict,
        Forall (fun kv => P (snd kv)) entries -> P (VDict entries))
    (v : value) {struct v} : P v :=
  let rec := value_ind P HNone HBool HInt HFloat HStr HList HDict in
  match v with
  | VNone => HNone
  | VBool b => HBool b
  | VInt n => HInt n
  | VFloat f => HFloat f
  | VStr s => HStr s
  | VList items =>
      HList items
        ((fix members (l : list value) : Forall P l :=
            match l with
            | [] => Forall_nil P
            | x :: l' => @Forall_cons _ P x l' (rec x) (members l')
            end) items)
  | VDict entries =>
      HDict entries
        ((fix members (l : dict) : Forall (fun kv => P (snd kv)) l :=
            match l with
            | [] => Forall_nil _
            | kv :: l' =>
                @Forall_cons _ (fun kv => P (snd kv)) kv l' (rec (snd kv)) (members l')
            end) entries)
  end.

(** [d.get(key)] on a dict, with [None] for "no such key" kept apart from a
    stored [None]: the first (and, keys being distinct, only) entry of [key]. *)
Fixpoint dict_lookup {A : Type} (d : list (string * A)) (key : string) : option A :=
  match d with
  | [] => None
  | (k, v) :: d' => if String.eqb k key then Some v else dict_lookup d' key
  end.

Definition dict_keys {A : Type} (d : list (string * A)) : list string := map fst d.

(** Exceptions raised in this module or by the libraries it calls. *)
Inductive exn : Type :=
| JSONDecodeError                  (* json.loads: the text is not JSON *)
| TypeError (msg : string)
| ValueError (offending : value)   (* enum: "<offending> is not a valid GQLMsgType" *)
| KeyError (key : string)
| GraphQLSyntaxError.              (* graphql.parse: the text is not a document *)

Inductive result (A : Type) : Type :=
| Ok (a : A)
| Raise (e : exn).
Arguments Ok {A} a.
Arguments Raise {A} e.

(** ** Equality of Python values

    [py_eq v w] is [v == w].  [bool] is a subclass of [int] and an [int] is
    compared with a [float] by exact value, so [True == 1 == 1.0]; objects of
    unrelated types are unequal.  A list or dict compares its items with
    [PyObject_RichCompareBool(x, y, Py_EQ)]: "the same object, or [x == y]".
    Apart from a [nan], the same object is always [==] to itself, so identity
    matters at [nan] only ([same_nan_object]). *)

Inductive number : Type :=
| NInt (n : Z)
| NFloat (f : pyfloat).

Definition as_number (v : value) : option number :=
  match v with
  | VBool b => Some (NInt (if b then 1 else 0)%Z)
  | VInt n => Some (NInt n)
  | VFloat f => Some (NFloat f)
  | _ => None
  end.

Definition float_eq (x y : pyfloat) : bool :=
  match x, y with
  | FFinite a, FFinite b => Qeq_bool a b
  | FInf a, FInf b => Bool.eqb a b
  | _, _ => false
  end.

Definition int_float_eq (n : Z) (y : pyfloat) : bool :=
  match y with
  | FFinite q => Qeq_bool (inject_Z n) q
  | _ => false
  end.

Definition number_eq (x y : number) : bool :=
  match x, y with
  | NInt a, NInt b => Z.eqb a b
  | NInt a, NFloat g => int_float_eq a g
  | NFloat f, NInt b => int_float_eq b f
  | NFloat f, NFloat g => float_eq f g
  end.

Definition same_nan_object (v w : value) : bool :=
  match v, w with
  | VFloat (FNaN i), VFloat (FNaN j) => Nat.eqb i j
  | _, _ => false
  end.

Fixpoint py_eq (v w : value) {struct v} : bool :=
  match v with
  | VNone => match w with VNone => true | _ => false end
  | VBool _ | VInt _ | VFloat _ =>
      match as_number v, as_number w with
      | Some x, Some y => number_eq x y
      | _, _ => false
      end
  | VStr a => match w with VStr b => String.eqb a b | _ => false end
  | VList a =>
      match w with
      | VList b =>
          (* list_richcompare: same length and items equal position by position *)
          (fix items (a b : list value) {struct a} : bool :=
             match a, b with
             | [], [] => true
             | x :: a', y :: b' => (same_nan_object x y || py_eq x y) && items a' b'
             | _, _ => false
             end) a b
      | _ => false
      end
  | VDict a =>
      match w with
      | VDict b =>
          (* dict_equal: same size, and every key of a is bound in b to an
             equal value *)
          Nat.eqb (length a) (length b)
          && (fix entries (a : dict) {struct a} : bool :=
                match a with
                | [] => true
                | kv :: a' =>
                    match dict_lookup b (fst kv) with
                    | Some bval => (same_nan_object (snd kv) bval || py_eq (snd kv) bval)
                    | None => false
                    end && entries a'
                end) a
      | _ => false
      end
  end.

(** [PyObject_RichCompareBool(v, w, Py_EQ)]. *)
Definition RichCompareBool_EQ (v w : value) : bool :=
  same_nan_object v w || py_eq v w.

(** [a == b] on two dicts (CPython's [dict_equal]), and on two lists. *)
Definition dict_equal (a b : dict) : bool :=
  Nat.eqb (length a) (length b)
  && forallb (fun kv => match dict_lookup b (fst kv) with
                        | Some bval => RichCompareBool_EQ (snd kv) bval
                        | None => false
                        end) a.

Fixpoint list_equal (a b : list value) : bool :=
  match a, b with
  | [], [] => true
  | x :: a', y :: b' => RichCompareBool_EQ x y && list_equal a' b'
  | _, _ => false
  end.

(** The dict invariant: keys pairwise distinct, at every depth. *)
Fixpoint distinct (keys : list string) : bool :=
  match keys with
  | [] => true
  | k :: keys' => negb (existsb (String.eqb k) keys') && distinct keys'
  end.

Fixpoint dict_keys_unique (v : value) : bool :=
  match v with
  | VList items => forallb dict_keys_unique items
  | VDict entries =>
      distinct (dict_keys entries)
      && forallb (fun kv => dict_keys_unique (snd kv)) entries
  | _ => true
  end.

(** Truthiness, as used by [payload or {}]. *)
Definition dict_truthy (d : dict) : bool :=
  match d with [] => false | _ => true end.

(** ** The two libraries

    [json.loads(text)] returns the decoded object or raises
    [json.JSONDecodeError] when the text is not syntactically valid JSON.
    The interface has these two outcomes only: what else the decoder may raise
    on a text (a [RecursionError] on deep nesting, a [ValueError] on an
    integer of thousands of digits) is not part of it.  *)
Class JsonLibrary : Type := {
  json_loads : string -> option value   (* None: JSONDecodeError *)
}.

(** Modelled from the spec: the syntax tree of graphql-core, whose code is not
    part of the repository, as far as this module reads it.  A document is a
    sequence of top-level definitions; an operation definition carries its
    operation type, and an anonymous definition, the shorthand [{ ... }]
    without keyword or name, is an "implicit query": its operation is QUERY. *)
Inductive OperationType : Type := QUERY | MUTATION | SUBSCRIPTION.

Inductive DefinitionNode : Type :=
| OperationDefinitionNode (operation : OperationType) (name : option string)
| FragmentDefinitionNode (name : string)
| TypeSystemDefinitionNode (name : string).

Record DocumentNode : Type := { definitions : list DefinitionNode }.

(** Modelled from the spec: [graphql.Source(body)], a class of graphql-core,
    whose code is not part of the repository.  The spec has it "wrap the
    (possibly absent) query value as a labeled source artifact": the
    constructor keeps any body, under the label of a request source. *)
Record Source : Type := { body : value; name : string }.

Definition graphql_Source (body : value) : Source :=
  {| body := body; name := "GraphQL request" |}.

(** The grammar of the query language: the document a text parses to, or
    [None] when [graphql.parse] raises [GraphQLSyntaxError] on it. *)
Class GraphQLLibrary : Type := {
  grammar : string -> option DocumentNode
}.

(** Modelled from the spec: [graphql.parse(source)], a function of
    graphql-core, whose code is not part of the repository.  The spec lists
    "non-string query, missing query, or syntax error" as the failures of
    parsing: anything but a [str] is refused with a [TypeError], and a [str]
    is handed to the grammar. *)
Definition graphql_parse `{GraphQLLibrary} (source : value) : result DocumentNode :=
  match source with
  | VStr text =>
      match grammar text with
      | Some document => Ok document
      | None => Raise GraphQLSyntaxError
      end
  | _ => Raise (TypeError "Unexpected source type")
  end.

(** ** Calls into graphql-core

    The properties of a payload are computed on every access, and two of them
    call the library.  A computation threads the log of the library calls made
    so far, so that how often (and whether) the parser runs is part of what a
    property does. *)
Inductive library_call : Type :=
| parse_call (source : value)
| Source_call (body : value).

Definition traced (A : Type) : Type := list library_call -> A * list library_call.

Definition ret {A : Type} (a : A) : traced A := fun log => (a, log).

Definition bind {A B : Type} (m : traced A) (k : A -> traced B) : traced B :=
  fun log => let (a, log') := m log in k a log'.

Definition call {A : Type} (c : library_call) (outcome : A) : traced A :=
  fun log => (outcome, log ++ [c]).

Declare Scope traced_scope.
Delimit Scope traced_scope with traced.
Notation "x <- m ;; k" := (bind m (fun x => k))
  (at level 61, m at next level, right associativity) : traced_scope.

(** The value a computation returns, and the calls it adds to the log. *)
Definition returns {A : Type} (m : traced A) (log : list library_call) : A := fst (m log).
Definition calls_after {A : Type} (m : traced A) (log : list library_call) :
  list library_call := snd (m log).

(** ** GQLMsgType (lines 16-24) *)

Inductive GQLMsgType : Type :=
| CONNECTION_INIT   (* Client -> Server *)
| CONNECTION_ACK    (* Server -> Client *)
| PING              (* Bidirectional *)
| PONG              (* Bidirectional *)
| SUBSCRIBE         (* Client -> Server *)
| NEXT              (* Server -> Client *)
| ERROR             (* Server -> Client *)
| COMPLETE.         (* Bidirectional *)

Definition GQLMsgType_value (member : GQLMsgType) : string :=
  match member with
  | CONNECTION_INIT => "connection_init"
  | CONNECTION_ACK => "connection_ack"
  | PING => "ping"
  | PONG => "pong"
  | SUBSCRIBE => "subscribe"
  | NEXT => "next"
  | ERROR => "error"
  | COMPLETE => "complete"
  end.

Definition GQLMsgType_members : list GQLMsgType :=
  [CONNECTION_INIT; CONNECTION_ACK; PING; PONG; SUBSCRIBE; NEXT; ERROR; COMPLETE].

(** [GQLMsgType(value)], the by-value lookup of [enum.Enum]: the member whose
    value [==] the argument, in definition order, else [ValueError]. *)
Definition GQLMsgType_call (v : value) : result GQLMsgType :=
  match find (fun member => py_eq (VStr (GQLMsgType_value member)) v) GQLMsgType_members with
  | Some member => Ok member
  | None => Raise (ValueError v)
  end.

(** Members of an enum are singletons: [==] on them is identity. *)
Definition GQLMsgType_eq_dec (a b : GQLMsgType) : {a = b} + {a <> b}.
Proof. decide equality. Defined.

Definition GQLMsgType_eq (a b : GQLMsgType) : bool :=
  if GQLMsgType_eq_dec a b then true else false.

(** [d.get(key)] as Python has it: [None] when the key is missing. *)
Definition dict_get (d : dict) (key : string) : value :=
  match dict_lookup d key with
  | Some v => v
  | None => VNone
  end.

(** [d[key] = v]: a key that is bound keeps its place and takes the new
    value, a new key goes last.  [dict(pairs)] inserts the pairs in turn. *)
Fixpoint dict_setitem (d : dict) (key : string) (v : value) : dict :=
  match d with
  | [] => [(key, v)]
  | (k, x) :: d' =>
      if String.eqb k key then (k, v) :: d' else (k, x) :: dict_setitem d' key v
  end.

Definition dict_of_items (pairs : list (string * value)) : dict :=
  fold_left (fun d kv => dict_setitem d (fst kv) (snd kv)) pairs [].

(** [all([...])] and [any([...])] over a list that is built in full first. *)
Definition all (bs : list bool) : bool := forallb (fun b => b) bs.
Definition any (bs : list bool) : bool := existsb (fun b => b) bs.

(** ** OperationMessagePayload (lines 27-80) *)

Module OperationMessagePayload.

(** [__slots__ = ("_payload",)]: the wrapped dict is all an instance holds. *)
Record t : Type := { _payload : dict }.

Definition is_None (v : value) : bool :=
  match v with VNone => true | _ => false end.

Definition isinstance_dict (v : value) : bool :=
  match v with VDict _ => true | _ => false end.

(** [payload or {}], for a payload that is [None] or a dict. *)
Definition or_empty (payload : value) : dict :=
  match payload with
  | VDict d => if dict_truthy d then d else []
  | _ => []
  end.

Definition __init__ (payload : value) : result t :=
  if negb (is_None payload) && negb (isinstance_dict payload)
  then Raise (TypeError "Payload must be an object")
  else Ok {| _payload := or_empty payload |}.

Definition __getitem__ (self : t) (key : string) : result value :=
  match dict_lookup (_payload self) key with
  | Some v => Ok v
  | None => Raise (KeyError key)
  end.

Definition __iter__ (self : t) : list string := dict_keys (_payload self).

Definition __len__ (self : t) : nat := length (_payload self).

(** The mixin methods [collections.abc.Mapping] derives from the three
    above.  [get] and [__contains__] try [self[key]] and handle [KeyError]
    only; [__eq__] compares [dict(self.items())] with
    [dict(other.items())], which are copies of the two wrapped dicts. *)
Definition get (self : t) (key : string) : result value :=
  match __getitem__ self key with
  | Ok v => Ok v
  | Raise (KeyError _) => Ok VNone
  | Raise e => Raise e
  end.

Definition __contains__ (self : t) (key : string) : result bool :=
  match __getitem__ self key with
  | Ok _ => Ok true
  | Raise (KeyError _) => Ok false
  | Raise e => Raise e
  end.

Definition __eq__ (self other : t) : bool :=
  dict_equal (_payload self) (_payload other).

(** The views of [collections.abc.Mapping]: [keys()] iterates the mapping,
    [items()] and [values()] index it, [self[key]], at every key that the
    iteration yields, and stop at the first index that raises. *)
Definition keys (self : t) : list string := __iter__ self.

Fixpoint items_at (self : t) (ks : list string) : result (list (string * value)) :=
  match ks with
  | [] => Ok []
  | key :: ks' =>
      match __getitem__ self key with
      | Raise e => Raise e
      | Ok v =>
          match items_at self ks' with
          | Raise e => Raise e
          | Ok rest => Ok ((key, v) :: rest)
          end
      end
  end.

Definition items (self : t) : result (list (string * value)) :=
  items_at self (__iter__ self).

Definition values (self : t) : result (list value) :=
  match items self with
  | Ok pairs => Ok (map snd pairs)
  | Raise e => Raise e
  end.

(** [Mapping.__eq__] as [collections.abc] writes it:
    [dict(self.items()) == dict(other.items())]. *)
Definition Mapping__eq__ (self other : t) : result bool :=
  match items self with
  | Raise e => Raise e
  | Ok mine =>
      match items other with
      | Raise e => Raise e
      | Ok theirs => Ok (dict_equal (dict_of_items mine) (dict_of_items theirs))
      end
  end.

Definition query (self : t) : result value := get self "query".

Definition variable_values (self : t) : result value := get self "variables".

Definition operation_name (self : t) : result value := get self "operationName".

Section Parsing.
Context `{GraphQLLibrary}.
Local Open Scope traced_scope.

(** [try: return graphql.parse(self.query)  except Exception: return None] *)
Definition document (self : t) : traced (option DocumentNode) :=
  match query self with
  | Ok q =>
      parsed <- call (parse_call q) (graphql_parse q) ;;
      ret (match parsed with
           | Ok tree => Some tree
           | Raise _ => None
           end)
  | Raise _ => ret None
  end.

Definition source (self : t) : traced (result Source) :=
  match query self with
  | Ok q => call (Source_call q) (Ok (graphql_Source q))
  | Raise e => ret (Raise e)
  end.

(** [isinstance(definition, OperationDefinitionNode) and
    definition.operation is OperationType.SUBSCRIPTION] *)
Definition is_subscription (definition : DefinitionNode) : bool :=
  match definition with
  | OperationDefinitionNode SUBSCRIPTION _ => true
  | _ => false
  end.

Definition has_subscription_operation (self : t) : traced bool :=
  document <- document self ;;
  ret (match document with
       | Some tree => any (map is_subscription (definitions tree))
       | None => false
       end).
End Parsing.

End OperationMessagePayload.

(** ** OperationMessage (lines 83-129) *)

Module OperationMessage.

Record t : Type := {
  _type : GQLMsgType;
  _id : value;
  _payload : OperationMessagePayload.t
}.

Definition __init__ (type id payload : value) : result t :=
  match GQLMsgType_call type with
  | Raise e => Raise e
  | Ok kind =>
      match OperationMessagePayload.__init__ payload with
      | Raise e => Raise e
      | Ok wrapped => Ok {| _type := kind; _id := id; _payload := wrapped |}
      end
  end.

Definition id (self : t) : value := _id self.
Definition type (self : t) : GQLMsgType := _type self.
Definition payload (self : t) : OperationMessagePayload.t := _payload self.

(** [__eq__] against another [OperationMessage] (anything else is unequal
    before a field is read). *)
Definition __eq__ (self other : t) : bool :=
  all [ GQLMsgType_eq (type self) (type other);
        py_eq (id self) (id other);
        OperationMessagePayload.__eq__ (payload self) (payload other) ].

Definition load (data : value) : result t :=
  match data with
  | VDict d => __init__ (dict_get d "type") (dict_get d "id") (dict_get d "payload")
  | _ => Raise (TypeError "Message must be an object")
  end.

Definition loads `{JsonLibrary} (data : string) : result t :=
  match json_loads data with
  | Some decoded => load decoded
  | None => Raise JSONDecodeError
  end.

End OperationMessage.

(** ** The vocabulary of the specification

    The failure kinds of the specification are names for the exceptions the
    code raises. *)
Definition MalformedJSON : exn := JSONDecodeError.
Definition InvalidEnvelopeShape : exn := TypeError "Message must be an object".
Definition InvalidPayloadShape : exn := TypeError "Payload must be an object".
Definition InvalidMessageKind (offending : value) : exn := ValueError offending.

(** The eight canonical type strings, as the specification lists them. *)
Definition canonical_type_strings : list string :=
  ["connection_init"; "connection_ack"; "ping"; "pong";
   "subscribe"; "next"; "error"; "complete"].

(** The shape of a raw JSON value. *)
Inductive shape : Type :=
| NullShape | BooleanShape | NumberShape | StringShape | ArrayShape | ObjectShape.

Definition shape_of (v : value) : shape :=
  match v with
  | VNone => NullShape
  | VBool _ => BooleanShape
  | VInt _ | VFloat _ => NumberShape
  | VStr _ => StringShape
  | VList _ => ArrayShape
  | VDict _ => ObjectShape
  end.

(** Two mappings are equal, whatever the order their keys were inserted in:
    every key is bound in both, to equal values, or in neither. *)
Definition same_mapping (m1 m2 : dict) : Prop :=
  forall key,
    match dict_lookup m1 key, dict_lookup m2 key with
    | Some v1, Some v2 => RichCompareBool_EQ v1 v2 = true
    | None, None => True
    | _, _ => False
    end.

(** An operation definition explicitly typed as a subscription. *)
Definition subscription_definition (definition : DefinitionNode) : Prop :=
  exists name, definition = OperationDefinitionNode SUBSCRIPTION name.

(** ** Sample libraries

    The answers of the two libraries on the texts of the examples in the
    specification; they instantiate the interfaces where a statement is run
    on a concrete input.  A text is written with apostrophes for its double
    quotes. *)
Fixpoint json_text (text : string) : string :=
  match text with
  | EmptyString => EmptyString
  | String c rest =>
      String (if Ascii.eqb c "'"%char then ascii_of_nat 34 else c) (json_text rest)
  end.

Definition sample_texts : list (string * value) :=
  [ (json_text "{'type':'ping'}", VDict [("type", VStr "ping")]);
    (json_text "{'type':'subscribe','id':'1','payload':{'query':'{a}'}}",
     VDict [("type", VStr "subscribe"); ("id", VStr "1");
            ("payload", VDict [("query", VStr "{a}")])]);
    (json_text "[1,2]", VList [VInt 1; VInt 2]);
    (json_text "{'type':'nope'}", VDict [("type", VStr "nope")]);
    (json_text "{'type':'ping','id':NaN}",
     VDict [("type", VStr "ping"); ("id", VFloat (FNaN 0))]) ].

#[local] Instance sample_json : JsonLibrary :=
  {| json_loads := dict_lookup sample_texts |}.

Definition sample_documents : list (string * DocumentNode) :=
  [ ("{ __typename }", {| definitions := [OperationDefinitionNode QUERY None] |});
    ("{a}", {| definitions := [OperationDefinitionNode QUERY None] |});
    ("subscription { onThing }",
     {| definitions := [OperationDefinitionNode SUBSCRIPTION None] |}) ].

#[local] Instance sample_graphql : GraphQLLibrary :=
  {| grammar := dict_lookup sample_documents |}.

(** * Properties *)

(** ** Python equality *)

Lemma py_eq_dict (a b : dict) : py_eq (VDict a) (VDict b) = dict_equal a b.
Proof.
  reflexivity.
Qed.

Lemma py_eq_list (a b : list value) : py_eq (VList a) (VList b) = list_equal a b.
Proof.
  cbn [py_eq]. revert b.
  induction a as [|x a IH]; intros [|y b]; cbn [list_equal]; try reflexivity.
Qed.

Lemma distinct_NoDup (keys : list string) : distinct keys = true <-> NoDup keys.
Proof.
  induction keys as [|k keys IH]; cbn [distinct].
  - split; [constructor | reflexivity].
  - rewrite andb_true_iff, negb_true_iff, IH, NoDup_cons_iff.
    assert (Hin : existsb (String.eqb k) keys = false <-> ~ In k keys).
    { rewrite <- not_true_iff_false, existsb_exists. split.
      - intros Hno Hk. apply Hno. exists k. split; [exact Hk | apply String.eqb_refl].
      - intros Hno [k' [Hk' Heq]]. apply String.eqb_eq in Heq. subst k'. exact (Hno Hk'). }
    rewrite Hin. reflexivity.
Qed.

Section Lookup.
Context {A : Type}.
Implicit Types (d : list (string * A)) (key : string).

Lemma dict_lookup_In d key v : dict_lookup d key = Some v -> In (key, v) d.
Proof.
  induction d as [|[k x] d IH]; cbn [dict_lookup]; [discriminate|].
  destruct (String.eqb k key) eqn:Hk.
  - apply String.eqb_eq in Hk. intros [= ->]. subst k. left. reflexivity.
  - intros Hv. right. exact (IH Hv).
Qed.

Lemma dict_lookup_None d key : dict_lookup d key = None <-> ~ In key (dict_keys d).
Proof.
  unfold dict_keys.
  induction d as [|[k x] d IH]; cbn [dict_lookup map fst In].
  - split; [intros _ []| reflexivity].
  - destruct (String.eqb k key) eqn:Hk.
    + apply String.eqb_eq in Hk. split; [discriminate | intros Hno; exfalso; auto].
    + apply String.eqb_neq in Hk. rewrite IH. tauto.
Qed.

Lemma dict_lookup_Some_key d key v : dict_lookup d key = Some v -> In key (dict_keys d).
Proof.
  intros Hv. apply dict_lookup_In in Hv.
  unfold dict_keys. change key with (fst (key, v)). apply in_map. exact Hv.
Qed.

Lemma In_dict_lookup d key v :
  NoDup (dict_keys d) -> In (key, v) d -> dict_lookup d key = Some v.
Proof.
  unfold dict_keys.
  induction d as [|[k x] d IH]; cbn [dict_lookup map fst In]; [intros _ []|].
  intros Hnd [Heq | Hin]; apply NoDup_cons_iff in Hnd; destruct Hnd as [Hk Hnd].
  - injection Heq as -> ->. rewrite String.eqb_refl. reflexivity.
  - destruct (String.eqb k key) eqn:Hkey.
    + apply String.eqb_eq in Hkey. subst k. exfalso. apply Hk.
      change key with (fst (key, v)). apply in_map. exact Hin.
    + apply IH; assumption.
Qed.

Lemma In_keys_dict_lookup d key :
  In key (dict_keys d) -> exists v, dict_lookup d key = Some v.
Proof.
  intros Hin. destruct (dict_lookup d key) as [v|] eqn:Hv; [exists v; reflexivity|].
  apply dict_lookup_None in Hv. contradiction.
Qed.
End Lookup.

Lemma RichCompareBool_EQ_refl (v : value) :
  dict_keys_unique v = true -> RichCompareBool_EQ v v = true.
Proof.
  unfold RichCompareBool_EQ.
  induction v as [| b | n | f | s | items IH | entries IH] using value_ind; intros Hwf.
  - reflexivity.
  - cbn. rewrite Z.eqb_refl. reflexivity.
  - cbn. rewrite Z.eqb_refl. reflexivity.
  - destruct f as [q | neg | obj]; cbn.
    + apply Qeq_bool_refl.
    + apply eqb_reflx.
    + rewrite Nat.eqb_refl. reflexivity.
  - cbn. apply String.eqb_refl.
  - rewrite py_eq_list. cbn [same_nan_object orb].
    cbn [dict_keys_unique] in Hwf.
    induction IH as [|x items Hx _ IHitems]; [reflexivity|].
    cbn [forallb] in Hwf. apply andb_true_iff in Hwf. destruct Hwf as [Hwx Hwitems].
    cbn [list_equal]. unfold RichCompareBool_EQ at 1.
    rewrite (Hx Hwx), (IHitems Hwitems). reflexivity.
  - rewrite py_eq_dict. cbn [same_nan_object orb].
    cbn [dict_keys_unique] in Hwf. apply andb_true_iff in Hwf.
    destruct Hwf as [Hkeys Hvals]. apply distinct_NoDup in Hkeys.
    unfold dict_equal. rewrite Nat.eqb_refl. cbn [andb].
    apply forallb_forall. intros [k x] Hin. cbn [fst snd].
    rewrite (In_dict_lookup _ _ _ Hkeys Hin).
    rewrite Forall_forall in IH. rewrite forallb_forall in Hvals.
    exact (IH _ Hin (Hvals _ Hin)).
Qed.

(** What [dict_equal] checks, entry by entry. *)
Lemma dict_equal_spec (a b : dict) :
  dict_equal a b = true <->
  length a = length b /\
  forall key av, In (key, av) a ->
    exists bv, dict_lookup b key = Some bv /\ RichCompareBool_EQ av bv = true.
Proof.
  unfold dict_equal. rewrite andb_true_iff, Nat.eqb_eq, forallb_forall.
  split; intros [Hlen Hall]; split; try exact Hlen.
  - intros key av Hin. specialize (Hall _ Hin). cbn [fst snd] in Hall.
    destruct (dict_lookup b key) as [bv|]; [|discriminate].
    exists bv. split; [reflexivity | exact Hall].
  - intros [key av] Hin. cbn [fst snd].
    destruct (Hall _ _ Hin) as [bv [-> Heq]]. exact Heq.
Qed.

(** On dicts (keys distinct), [==] is the order-independent equality of the
    two mappings. *)
Lemma dict_equal_same_mapping (a b : dict) :
  NoDup (dict_keys a) -> NoDup (dict_keys b) ->
  (dict_equal a b = true <-> same_mapping a b).
Proof.
  intros Ha Hb. rewrite dict_equal_spec. unfold same_mapping. split.
  - intros [Hlen Hall] key.
    destruct (dict_lookup a key) as [av|] eqn:Hav.
    + apply dict_lookup_In in Hav. destruct (Hall _ _ Hav) as [bv [-> Heq]]. exact Heq.
    + destruct (dict_lookup b key) as [bv|] eqn:Hbv; [|exact I].
      apply dict_lookup_None in Hav. apply Hav.
      apply dict_lookup_Some_key in Hbv.
      assert (Hincl : incl (dict_keys a) (dict_keys b)).
      { intros k Hk. apply In_keys_dict_lookup in Hk. destruct Hk as [v Hv].
        apply dict_lookup_In in Hv. destruct (Hall _ _ Hv) as [bv' [Hbv' _]].
        exact (dict_lookup_Some_key _ _ _ Hbv'). }
      apply (@NoDup_length_incl _ (dict_keys a) (dict_keys b) Ha); [|exact Hincl|exact Hbv].
      unfold dict_keys. rewrite !length_map. lia.
  - intros Hsame. split.
    + assert (Hab : incl (dict_keys a) (dict_keys b)).
      { intros k Hk. apply In_keys_dict_lookup in Hk. destruct Hk as [v Hv].
        specialize (Hsame k). rewrite Hv in Hsame.
        destruct (dict_lookup b k) as [bv|] eqn:Hbv; [|contradiction].
        exact (dict_lookup_Some_key _ _ _ Hbv). }
      assert (Hba : incl (dict_keys b) (dict_keys a)).
      { intros k Hk. apply In_keys_dict_lookup in Hk. destruct Hk as [v Hv].
        specialize (Hsame k). rewrite Hv in Hsame.
        destruct (dict_lookup a k) as [av|] eqn:Hav; [|contradiction].
        exact (dict_lookup_Some_key _ _ _ Hav). }
      pose proof (NoDup_incl_length Ha Hab) as H1.
      pose proof (NoDup_incl_length Hb Hba) as H2.
      unfold dict_keys in H1, H2. rewrite !length_map in H1, H2. lia.
    + intros key av Hin. specialize (Hsame key).
      rewrite (In_dict_lookup _ _ _ Ha Hin) in Hsame.
      destruct (dict_lookup b key) as [bv|]; [|contradiction].
      exists bv. split; [reflexivity | exact Hsame].
Qed.

(** Two dicts with the same entries in a different insertion order are
    [==]. *)
Lemma dict_equal_Permutation (a b : dict) :
  dict_keys_unique (VDict a) = true -> Permutation a b -> dict_equal a b = true.
Proof.
  intros Hwf Hperm. cbn [dict_keys_unique] in Hwf.
  apply andb_true_iff in Hwf. destruct Hwf as [Hkeys Hvals].
  apply distinct_NoDup in Hkeys. rewrite forallb_forall in Hvals.
  assert (Hb : NoDup (dict_keys b)).
  { apply (Permutation_NoDup (l := dict_keys a)); [|exact Hkeys].
    unfold dict_keys. apply Permutation_map. exact Hperm. }
  apply dict_equal_spec. split; [apply Permutation_length; exact Hperm|].
  intros key av Hin. exists av. split.
  - apply In_dict_lookup; [exact Hb|]. exact (Permutation_in _ Hperm Hin).
  - apply RichCompareBool_EQ_refl. exact (Hvals _ Hin).
Qed.

(** [==] is reflexive except at a [nan]. *)
Lemma py_eq_refl (v : value) :
  dict_keys_unique v = true ->
  (forall obj, v <> VFloat (FNaN obj)) ->
  py_eq v v = true.
Proof.
  intros Hwf Hnan. pose proof (RichCompareBool_EQ_refl v Hwf) as Hrefl.
  unfold RichCompareBool_EQ in Hrefl. apply orb_true_iff in Hrefl.
  destruct Hrefl as [Hsame | Heq]; [|exact Heq].
  destruct v as [| | | [q|neg|obj] | | |]; try discriminate.
  exfalso. exact (Hnan obj eq_refl).
Qed.

(** ** MessageKind *)

Lemma GQLMsgType_call_other (v : value) :
  (forall member, v <> VStr (GQLMsgType_value member)) ->
  GQLMsgType_call v = Raise (InvalidMessageKind v).
Proof.
  intros Hv. unfold GQLMsgType_call, InvalidMessageKind.
  destruct (find _ GQLMsgType_members) as [member|] eqn:Hfind; [|reflexivity].
  apply find_some in Hfind. destruct Hfind as [_ Heq].
  destruct v; cbn in Heq; try discriminate.
  apply String.eqb_eq in Heq. subst s. elim (Hv member). reflexivity.
Qed.

(** C3. Constructing a message kind from each of the eight canonical type
    strings succeeds and gives the member whose value is that string; from any
    other string, and from anything that is not a string, it fails with
    InvalidMessageKind; an envelope without a "type" field fails with
    InvalidMessageKind as well (the field then reads as None). *)
Theorem C3_message_kind_construction :
  (forall member, GQLMsgType_call (VStr (GQLMsgType_value member)) = Ok member)
  /\ (forall s, In s canonical_type_strings ->
        exists member,
          GQLMsgType_call (VStr s) = Ok member /\ GQLMsgType_value member = s)
  /\ (forall s, ~ In s canonical_type_strings ->
        GQLMsgType_call (VStr s) = Raise (InvalidMessageKind (VStr s)))
  /\ (forall v, shape_of v <> StringShape ->
        GQLMsgType_call v = Raise (InvalidMessageKind v))
  /\ (forall d, dict_lookup d "type" = None ->
        OperationMessage.load (VDict d) = Raise (InvalidMessageKind VNone)).
Proof.
  split; [|split; [|split; [|split]]].
  - intros []; reflexivity.
  - intros s Hs. cbn [canonical_type_strings In] in Hs.
    repeat (destruct Hs as [<- | Hs];
            [eexists; split; [reflexivity|]; reflexivity|]).
    contradiction.
  - intros s Hs. apply GQLMsgType_call_other.
    intros member Heq. apply Hs. injection Heq as ->.
    destruct member; cbn; tauto.
  - intros v Hv. apply GQLMsgType_call_other.
    intros member ->. apply Hv. reflexivity.
  - intros d Hd. unfold OperationMessage.load, OperationMessage.__init__, dict_get.
    rewrite Hd. reflexivity.
Qed.

Lemma C3_message_kind_construction_witness :
  GQLMsgType_call (VStr "nope") = Raise (InvalidMessageKind (VStr "nope"))
  /\ OperationMessage.load (VDict [("id", VStr "1")]) = Raise (InvalidMessageKind VNone).
Proof.
  split.
  - apply (proj1 (proj2 (proj2 C3_message_kind_construction))).
    cbn. intros H. repeat (destruct H as [H | H]; [discriminate H|]). exact H.
  - apply (proj2 (proj2 (proj2 (proj2 C3_message_kind_construction)))).
    reflexivity.
Defined.

(** ** Payload: construction and read access *)

(** C4. Payload construction succeeds exactly when the raw value is an object
    or null; null gives the empty mapping and an object is wrapped as it is,
    so Payload(null) and Payload({}) are equal and both have size 0; a value of
    any other shape (array, string, number, boolean) fails with
    InvalidPayloadShape. *)
Theorem C4_payload_construction :
  (forall v,
      (exists p, OperationMessagePayload.__init__ v = Ok p) <->
      (shape_of v = ObjectShape \/ shape_of v = NullShape))
  /\ (forall d,
        OperationMessagePayload.__init__ (VDict d)
        = Ok {| OperationMessagePayload._payload := d |})
  /\ (exists p q,
        OperationMessagePayload.__init__ VNone = Ok p
        /\ OperationMessagePayload.__init__ (VDict []) = Ok q
        /\ OperationMessagePayload._payload p = []
        /\ OperationMessagePayload.__eq__ p q = true
        /\ OperationMessagePayload.__len__ p = 0
        /\ OperationMessagePayload.__len__ q = 0)
  /\ (forall v,
        shape_of v = ArrayShape \/ shape_of v = StringShape
        \/ shape_of v = NumberShape \/ shape_of v = BooleanShape ->
        OperationMessagePayload.__init__ v = Raise InvalidPayloadShape).
Proof.
  split; [|split; [|split]].
  - intros v. split.
    + intros [p Hp]. destruct v; cbn in Hp; try discriminate; auto.
    + intros [Hv | Hv]; destruct v; try discriminate; cbn; eauto.
  - intros [|kv d]; reflexivity.
  - do 2 eexists. repeat split.
  - intros v Hv. destruct v; cbn in Hv; try reflexivity;
      decompose [or] Hv; discriminate.
Qed.

Lemma C4_payload_construction_witness :
  OperationMessagePayload.__init__ (VList [VInt 1; VInt 2; VInt 3])
  = Raise InvalidPayloadShape.
Proof.
  apply (proj2 (proj2 (proj2 C4_payload_construction))).
  left. reflexivity.
Defined.

(** C10. Bracket indexing a payload at a key that its mapping does not hold
    raises the missing-key error; the get accessor, at the same key, returns
    absence. *)
Theorem C10_getitem_missing_key (p : OperationMessagePayload.t) (key : string) :
  ~ In key (OperationMessagePayload.__iter__ p) ->
  OperationMessagePayload.__getitem__ p key = Raise (KeyError key)
  /\ OperationMessagePayload.get p key = Ok VNone.
Proof.
  intros Hkey. apply dict_lookup_None in Hkey.
  unfold OperationMessagePayload.get, OperationMessagePayload.__getitem__.
  rewrite Hkey. split; reflexivity.
Qed.

Lemma C10_getitem_missing_key_witness :
  let p := {| OperationMessagePayload._payload := [("a", VInt 1)] |} in
  OperationMessagePayload.__getitem__ p "missing" = Raise (KeyError "missing")
  /\ OperationMessagePayload.get p "missing" = Ok VNone.
Proof.
  apply C10_getitem_missing_key.
  cbn. intros [H | []]. discriminate H.
Defined.

Lemma payload_of_dict (m : dict) (p : OperationMessagePayload.t) :
  OperationMessagePayload.__init__ (VDict m) = Ok p ->
  OperationMessagePayload._payload p = m.
Proof.
  destruct m; cbn; intros [= <-]; reflexivity.
Qed.

(** [get] never raises: [__getitem__] raises nothing but the [KeyError] that
    [get] handles. *)
Lemma get_dict_get (p : OperationMessagePayload.t) (key : string) :
  OperationMessagePayload.get p key = Ok (dict_get (OperationMessagePayload._payload p) key).
Proof.
  unfold OperationMessagePayload.get, OperationMessagePayload.__getitem__, dict_get.
  destruct (dict_lookup _ key); reflexivity.
Qed.

(** C8. A payload built from a mapping m reads like m: get returns the value
    bound to a present key and absence for a missing one, without raising;
    its size is the size of m; a key is contained in it exactly when it is a
    key of m; iterating it gives the keys of m in their insertion order. *)
Theorem C8_payload_read_access (m : dict) (p : OperationMessagePayload.t) :
  NoDup (dict_keys m) ->
  OperationMessagePayload.__init__ (VDict m) = Ok p ->
  (forall key v, In (key, v) m -> OperationMessagePayload.get p key = Ok v)
  /\ (forall key, ~ In key (dict_keys m) -> OperationMessagePayload.get p key = Ok VNone)
  /\ OperationMessagePayload.__len__ p = length m
  /\ (forall key,
        OperationMessagePayload.__contains__ p key = Ok true <-> In key (dict_keys m))
  /\ (forall key,
        OperationMessagePayload.__contains__ p key = Ok false <-> ~ In key (dict_keys m))
  /\ OperationMessagePayload.__iter__ p = dict_keys m.
Proof.
  intros Hkeys Hp. apply payload_of_dict in Hp.
  unfold OperationMessagePayload.__len__, OperationMessagePayload.__iter__,
    OperationMessagePayload.__contains__, OperationMessagePayload.__getitem__.
  setoid_rewrite get_dict_get. unfold dict_get. rewrite Hp.
  repeat split.
  - intros key v Hin. rewrite (In_dict_lookup _ _ _ Hkeys Hin). reflexivity.
  - intros key Hno. apply dict_lookup_None in Hno. rewrite Hno. reflexivity.
  - destruct (dict_lookup m key) eqn:Hv; [intros _|discriminate].
    exact (dict_lookup_Some_key _ _ _ Hv).
  - intros Hin. apply In_keys_dict_lookup in Hin. destruct Hin as [v ->]. reflexivity.
  - destruct (dict_lookup m key) eqn:Hv; [discriminate|intros _].
    apply dict_lookup_None. exact Hv.
  - intros Hno. apply dict_lookup_None in Hno. rewrite Hno. reflexivity.
Qed.

Lemma C8_payload_read_access_witness :
  let m := [("query", VStr "{a}"); ("a", VInt 1)] in
  let p := {| OperationMessagePayload._payload := m |} in
  OperationMessagePayload.get p "a" = Ok (VInt 1)
  /\ OperationMessagePayload.get p "missing" = Ok VNone
  /\ OperationMessagePayload.__len__ p = 2
  /\ OperationMessagePayload.__iter__ p = ["query"; "a"].
Proof.
  intros m p.
  assert (Hkeys : NoDup (dict_keys m)) by (apply distinct_NoDup; reflexivity).
  assert (Hp : OperationMessagePayload.__init__ (VDict m) = Ok p) by reflexivity.
  destruct (C8_payload_read_access m p Hkeys Hp) as [Hget [Hmiss [Hlen [_ [_ Hiter]]]]].
  split; [|split; [|split]].
  - apply Hget. right. left. reflexivity.
  - apply Hmiss. cbn. intros [H | [H | []]]; discriminate H.
  - exact Hlen.
  - exact Hiter.
Defined.

(** ** Payload: the derived document *)

Section Document.
Context `{GraphQLLibrary}.
Import OperationMessagePayload.
Local Open Scope traced_scope.

Implicit Types (p : OperationMessagePayload.t) (log : list library_call).

(** One access to [document] is one run of the parser, on the value bound
    to "query" ([None] when there is none). *)
Lemma document_run p log :
  document p log
  = (match graphql_parse (dict_get (_payload p) "query") with
     | Ok tree => Some tree
     | Raise _ => None
     end,
     log ++ [parse_call (dict_get (_payload p) "query")]).
Proof.
  unfold document, query. rewrite get_dict_get. reflexivity.
Qed.

Lemma has_subscription_operation_run p log :
  has_subscription_operation p log
  = (match fst (document p log) with
     | Some tree => existsb is_subscription (definitions tree)
     | None => false
     end,
     snd (document p log)).
Proof.
  unfold has_subscription_operation, bind, ret, any.
  destruct (document p log) as [[tree|] log']; cbn [fst snd]; [|reflexivity].
  f_equal. induction (definitions tree) as [|d ds IH]; [reflexivity|].
  cbn [map existsb]. rewrite IH. reflexivity.
Qed.

Lemma is_subscription_iff (d : DefinitionNode) :
  is_subscription d = true <-> subscription_definition d.
Proof.
  unfold subscription_definition. split.
  - destruct d as [[] name | |]; try discriminate. intros _. exists name. reflexivity.
  - intros [name ->]. reflexivity.
Qed.

(** C1. has_subscription_operation is true if and only if the document
    parses and one of its top-level definitions is an operation definition
    typed as a subscription; it is false when the document is absent, and
    when every operation definition of the document (there may be none) is a
    query or a mutation, named or anonymous. *)
Theorem C1_has_subscription_operation p log :
  (returns (has_subscription_operation p) log = true <->
   exists tree,
     returns (document p) log = Some tree
     /\ exists d, In d (definitions tree) /\ subscription_definition d)
  /\ (returns (document p) log = None ->
      returns (has_subscription_operation p) log = false)
  /\ (forall tree,
        returns (document p) log = Some tree ->
        (forall d operation name,
            In d (definitions tree) ->
            d = OperationDefinitionNode operation name ->
            operation = QUERY \/ operation = MUTATION) ->
        returns (has_subscription_operation p) log = false).
Proof.
  unfold returns. rewrite has_subscription_operation_run. cbn [fst].
  split; [|split].
  - split.
    + destruct (fst (document p log)) as [tree|]; [|discriminate].
      intros Hany. apply existsb_exists in Hany. destruct Hany as [d [Hin Hd]].
      exists tree. split; [reflexivity|]. exists d. split; [exact Hin|].
      apply is_subscription_iff. exact Hd.
    + intros [tree [-> [d [Hin Hd]]]]. apply existsb_exists.
      exists d. split; [exact Hin|]. apply is_subscription_iff. exact Hd.
  - intros ->. reflexivity.
  - intros tree -> Hall. apply not_true_iff_false. intros Hany.
    apply existsb_exists in Hany. destruct Hany as [d [Hin Hd]].
    apply is_subscription_iff in Hd. destruct Hd as [name ->].
    destruct (Hall _ _ _ Hin eq_refl); discriminate.
Qed.

(** C5. document returns, and never raises: it is absent when no query is
    bound, when the bound query is not a string and when the string is not
    in the grammar; when the string parses, it is the resulting tree.  Every
    access runs the parser again. *)
Theorem C5_document_absent_on_failure p log :
  (dict_lookup (_payload p) "query" = None -> returns (document p) log = None)
  /\ (forall v,
        dict_lookup (_payload p) "query" = Some v ->
        shape_of v <> StringShape ->
        returns (document p) log = None)
  /\ (forall text,
        dict_lookup (_payload p) "query" = Some (VStr text) ->
        grammar text = None ->
        returns (document p) log = None)
  /\ (forall text tree,
        dict_lookup (_payload p) "query" = Some (VStr text) ->
        grammar text = Some tree ->
        returns (document p) log = Some tree)
  /\ calls_after (document p) log
     = log ++ [parse_call (dict_get (_payload p) "query")]
  /\ calls_after (_ <- document p ;; document p) log
     = log ++ [parse_call (dict_get (_payload p) "query");
               parse_call (dict_get (_payload p) "query")].
Proof.
  unfold returns, calls_after, bind. rewrite !document_run. cbn [fst snd].
  unfold dict_get.
  split; [|split; [|split; [|split; [|split]]]].
  - intros ->. reflexivity.
  - intros v -> Hv. destruct v; try reflexivity. elim Hv. reflexivity.
  - intros text -> Hg. cbn. rewrite Hg. reflexivity.
  - intros text tree -> Hg. cbn. rewrite Hg. reflexivity.
  - reflexivity.
  - rewrite <- app_assoc. reflexivity.
Qed.

(** C9. source succeeds on every payload: it wraps the value bound to
    "query", or None when the key is absent, under the label of a request
    source, and the parser is not run. *)
Theorem C9_source_wraps_query p log :
  returns (source p) log = Ok (graphql_Source (dict_get (_payload p) "query"))
  /\ (dict_lookup (_payload p) "query" = None ->
      returns (source p) log = Ok {| body := VNone; name := "GraphQL request" |})
  /\ calls_after (source p) log
     = log ++ [Source_call (dict_get (_payload p) "query")]
  /\ (forall text,
        In (parse_call text) (calls_after (source p) log) -> In (parse_call text) log).
Proof.
  unfold returns, calls_after, source, query. rewrite get_dict_get.
  unfold call. cbn [fst snd].
  split; [|split; [|split]].
  - reflexivity.
  - unfold dict_get. intros ->. reflexivity.
  - reflexivity.
  - intros text Hin. apply in_app_or in Hin. destruct Hin as [Hin | [Hin | []]].
    + exact Hin.
    + discriminate Hin.
Qed.
End Document.

(** ** OperationMessage: the two entry points *)

Lemma GQLMsgType_call_raises (v : value) (e : exn) :
  GQLMsgType_call v = Raise e -> e = InvalidMessageKind v.
Proof.
  unfold GQLMsgType_call. destruct (find _ _); [discriminate|].
  intros [= <-]. reflexivity.
Qed.

Lemma payload_init_raises (v : value) (e : exn) :
  OperationMessagePayload.__init__ v = Raise e -> e = InvalidPayloadShape.
Proof.
  unfold OperationMessagePayload.__init__.
  destruct (_ && _); [|discriminate]. intros [= <-]. reflexivity.
Qed.

(** The failures of [load]: a [TypeError] or the enum's [ValueError], never
    the decoder's error. *)
Lemma load_raises (data : value) (e : exn) :
  OperationMessage.load data = Raise e ->
  e = InvalidEnvelopeShape \/ e = InvalidPayloadShape
  \/ exists offending, e = InvalidMessageKind offending.
Proof.
  destruct data; cbn [OperationMessage.load];
    try (intros [= <-]; left; reflexivity).
  unfold OperationMessage.__init__.
  destruct (GQLMsgType_call _) as [kind|e1] eqn:Hkind.
  - destruct (OperationMessagePayload.__init__ _) as [wrapped|e2] eqn:Hwrapped;
      [discriminate|].
    intros [= <-]. right. left. exact (payload_init_raises _ _ Hwrapped).
  - intros [= <-]. right. right. eexists. exact (GQLMsgType_call_raises _ _ Hkind).
Qed.

Lemma dict_get_keys_unique (d : dict) (key : string) :
  dict_keys_unique (VDict d) = true -> dict_keys_unique (dict_get d key) = true.
Proof.
  cbn [dict_keys_unique]. rewrite andb_true_iff, forallb_forall. intros [_ Hvals].
  unfold dict_get. destruct (dict_lookup d key) as [v|] eqn:Hv; [|reflexivity].
  apply dict_lookup_In in Hv. exact (Hvals _ Hv).
Qed.

Lemma GQLMsgType_eq_true (a b : GQLMsgType) : GQLMsgType_eq a b = true <-> a = b.
Proof.
  unfold GQLMsgType_eq. destruct (GQLMsgType_eq_dec a b); split; congruence.
Qed.

Lemma message_eq_spec (a b : OperationMessage.t) :
  OperationMessage.__eq__ a b = true <->
  OperationMessage.type a = OperationMessage.type b
  /\ py_eq (OperationMessage.id a) (OperationMessage.id b) = true
  /\ dict_equal (OperationMessagePayload._payload (OperationMessage.payload a))
       (OperationMessagePayload._payload (OperationMessage.payload b)) = true.
Proof.
  unfold OperationMessage.__eq__, all, OperationMessagePayload.__eq__.
  cbn [forallb]. rewrite !andb_true_iff, GQLMsgType_eq_true. tauto.
Qed.

Section Entrypoints.
Context `{JsonLibrary}.
Import OperationMessage.

(** C2. loads fails with MalformedJSON exactly when the decoder rejects the
    text as not being JSON; when the text decodes to a value that is not an
    object, loads fails with InvalidEnvelopeShape; otherwise loads is load on
    the decoded object. *)
Theorem C2_loads_failures (s : string) :
  (loads s = Raise MalformedJSON <-> json_loads s = None)
  /\ (forall decoded,
        json_loads s = Some decoded ->
        shape_of decoded <> ObjectShape ->
        loads s = Raise InvalidEnvelopeShape)
  /\ (forall d, json_loads s = Some (VDict d) -> loads s = load (VDict d)).
Proof.
  unfold loads. split; [|split].
  - destruct (json_loads s) as [decoded|]; [|tauto].
    split; [|discriminate]. intros Hload. apply load_raises in Hload.
    destruct Hload as [Hload | [Hload | [offending Hload]]]; discriminate Hload.
  - intros decoded -> Hshape. destruct decoded; try reflexivity.
    elim Hshape. reflexivity.
  - intros d ->. reflexivity.
Qed.

(** C6 (amended). When the text decodes to an object o, loads on the text is
    load on o, the composition of decoding with the object entry point: the
    two fail with the same error or build messages with the same kind, the
    same id and the same payload.  The two messages are equal ([==]) exactly
    when the id of o is not a NaN number: a NaN, which the decoder reads from
    the literal NaN, is not equal to itself. *)
Theorem C6_loads_is_load_of_decoded (s : string) (o : dict) :
  json_loads s = Some (VDict o) ->
  loads s = load (VDict o)
  /\ (forall a b,
        loads s = Ok a -> load (VDict o) = Ok b ->
        (type a = type b /\ id a = id b /\ payload a = payload b)
        /\ (dict_keys_unique (VDict o) = true ->
            (__eq__ a b = true <->
             forall obj, dict_get o "id" <> VFloat (FNaN obj)))).
Proof.
  intros Hs. unfold loads. rewrite Hs.
  split; [reflexivity|].
  intros a b Ha Hb. rewrite Ha in Hb. injection Hb as <-.
  split; [repeat split|].
  intros Hwf. rewrite message_eq_spec.
  cbn [load] in Ha. unfold __init__ in Ha.
  destruct (GQLMsgType_call _) as [kind|]; [|discriminate].
  destruct (OperationMessagePayload.__init__ _) as [wrapped|] eqn:Hwrapped;
    [|discriminate].
  injection Ha as <-. cbn [type id payload _type _id _payload].
  split.
  - intros [_ [Hid _]] obj Hnan. rewrite Hnan in Hid. discriminate Hid.
  - intros Hnan. split; [reflexivity|split].
    + apply py_eq_refl; [apply dict_get_keys_unique; exact Hwf | exact Hnan].
    + rewrite <- py_eq_dict.
      pose proof (dict_get_keys_unique o "payload" Hwf) as Hp.
      unfold OperationMessagePayload.__init__ in Hwrapped.
      destruct (_ && _); [discriminate|]. injection Hwrapped as <-.
      cbn [OperationMessagePayload._payload].
      assert (Hor : dict_keys_unique
                      (VDict (OperationMessagePayload.or_empty (dict_get o "payload")))
                    = true).
      { unfold OperationMessagePayload.or_empty.
        destruct (dict_get o "payload") as [| | | | | |d]; try reflexivity.
        destruct (dict_truthy d); [exact Hp | reflexivity]. }
      pose proof (RichCompareBool_EQ_refl _ Hor) as Hrefl.
      exact Hrefl.
Qed.
End Entrypoints.

(** ** OperationMessage: equality *)

(** C7. Two messages are equal if and only if their kinds are the same
    member, their ids are equal and their payload mappings are equal as
    mappings, whatever the insertion order of the keys; so two messages of the
    same kind, with equal ids, whose payload mappings hold the same entries in
    a different order, are equal. *)
Theorem C7_message_equality (a b : OperationMessage.t) :
  let ma := OperationMessagePayload._payload (OperationMessage.payload a) in
  let mb := OperationMessagePayload._payload (OperationMessage.payload b) in
  dict_keys_unique (VDict ma) = true ->
  dict_keys_unique (VDict mb) = true ->
  (OperationMessage.__eq__ a b = true <->
   OperationMessage.type a = OperationMessage.type b
   /\ py_eq (OperationMessage.id a) (OperationMessage.id b) = true
   /\ same_mapping ma mb)
  /\ (OperationMessage.type a = OperationMessage.type b ->
      py_eq (OperationMessage.id a) (OperationMessage.id b) = true ->
      Permutation ma mb ->
      OperationMessage.__eq__ a b = true).
Proof.
  intros ma mb Ha Hb.
  assert (Hka : NoDup (dict_keys ma)).
  { cbn [dict_keys_unique] in Ha. apply andb_true_iff in Ha.
    apply distinct_NoDup. exact (proj1 Ha). }
  assert (Hkb : NoDup (dict_keys mb)).
  { cbn [dict_keys_unique] in Hb. apply andb_true_iff in Hb.
    apply distinct_NoDup. exact (proj1 Hb). }
  rewrite message_eq_spec. fold ma mb. split.
  - rewrite (dict_equal_same_mapping ma mb Hka Hkb). reflexivity.
  - intros Hkind Hid Hperm. split; [exact Hkind|split; [exact Hid|]].
    exact (dict_equal_Permutation ma mb Ha Hperm).
Qed.

Lemma C7_message_equality_witness :
  let a := {| OperationMessage._type := SUBSCRIBE;
              OperationMessage._id := VInt 1;
              OperationMessage._payload :=
                {| OperationMessagePayload._payload :=
                     [("query", VStr "{a}"); ("variables", VDict [("n", VFloat (FNaN 0))])] |} |} in
  let b := {| OperationMessage._type := SUBSCRIBE;
              OperationMessage._id := VFloat (FFinite 1);
              OperationMessage._payload :=
                {| OperationMessagePayload._payload :=
                     [("variables", VDict [("n", VFloat (FNaN 0))]); ("query", VStr "{a}")] |} |} in
  OperationMessage.__eq__ a b = true.
Proof.
  intros a b.
  refine (proj2 (C7_message_equality a b _ _) _ _ _).
  - reflexivity.
  - reflexivity.
  - reflexivity.
  - reflexivity.
  - apply perm_swap.
Defined.

(** ** The statements above on the examples of the specification *)

Lemma C1_has_subscription_operation_witness :
  let implicit_query :=
    {| OperationMessagePayload._payload := [("query", VStr "{ __typename }")] |} in
  returns (@OperationMessagePayload.has_subscription_operation sample_graphql implicit_query) []
  = false.
Proof.
  intros implicit_query.
  refine (proj2 (proj2 (@C1_has_subscription_operation sample_graphql implicit_query []))
            {| definitions := [OperationDefinitionNode QUERY None] |} eq_refl _).
  intros d operation name [<- | []] [= <- _]. left. reflexivity.
Defined.

Lemma C5_document_absent_on_failure_witness :
  let malformed :=
    {| OperationMessagePayload._payload := [("query", VStr "not valid {{")] |} in
  returns (@OperationMessagePayload.document sample_graphql malformed) [] = None.
Proof.
  intros malformed.
  exact (proj1 (proj2 (proj2
           (@C5_document_absent_on_failure sample_graphql malformed [])))
           "not valid {{" eq_refl eq_refl).
Defined.

Lemma C9_source_wraps_query_witness :
  let empty := {| OperationMessagePayload._payload := [] |} in
  returns (OperationMessagePayload.source empty) []
  = Ok {| body := VNone; name := "GraphQL request" |}.
Proof.
  intros empty.
  exact (proj1 (proj2 (C9_source_wraps_query empty [])) eq_refl).
Defined.

Lemma C2_loads_failures_witness :
  @OperationMessage.loads sample_json (json_text "[1,2]") = Raise InvalidEnvelopeShape.
Proof.
  refine (proj1 (proj2 (@C2_loads_failures sample_json (json_text "[1,2]")))
            (VList [VInt 1; VInt 2]) eq_refl _).
  discriminate.
Defined.

Lemma C6_loads_is_load_of_decoded_witness :
  let s := json_text "{'type':'subscribe','id':'1','payload':{'query':'{a}'}}" in
  let o := [("type", VStr "subscribe"); ("id", VStr "1");
            ("payload", VDict [("query", VStr "{a}")])] in
  @OperationMessage.loads sample_json s = OperationMessage.load (VDict o).
Proof.
  intros s o.
  exact (proj1 (@C6_loads_is_load_of_decoded sample_json s o eq_refl)).
Defined.

(** At the text [{"type":"ping","id":NaN}], which decodes to an object whose
    id is NaN, loads and load both build a message, and the two messages are
    not equal. *)
Lemma C6_nan_id_counterexample :
  let s := json_text "{'type':'ping','id':NaN}" in
  let o := [("type", VStr "ping"); ("id", VFloat (FNaN 0))] in
  @json_loads sample_json s = Some (VDict o)
  /\ exists a b,
       @OperationMessage.loads sample_json s = Ok a
       /\ OperationMessage.load (VDict o) = Ok b
       /\ OperationMessage.__eq__ a b = false.
Proof.
  split; [reflexivity|].
  eexists. eexists. split; [reflexivity|]. split; reflexivity.
Qed.

Example loads_ping :
  @OperationMessage.loads sample_json (json_text "{'type':'ping'}")
  = Ok {| OperationMessage._type := PING;
          OperationMessage._id := VNone;
          OperationMessage._payload := {| OperationMessagePayload._payload := [] |} |}.
Proof. reflexivity. Qed.

Example loads_not_json :
  @OperationMessage.loads sample_json "not json" = Raise MalformedJSON.
Proof. reflexivity. Qed.

Example loads_unknown_kind :
  @OperationMessage.loads sample_json (json_text "{'type':'nope'}")
  = Raise (InvalidMessageKind (VStr "nope")).
Proof. reflexivity. Qed.

Example subscription_detected :
  returns (@OperationMessagePayload.has_subscription_operation sample_graphql
             {| OperationMessagePayload._payload :=
                  [("query", VStr "subscription { onThing }")] |}) []
  = true.
Proof. reflexivity. Qed.

(** A NaN id is not [==] to itself, so a message that carries one is not
    [==] to the message built from the same object. *)
Example nan_id_not_equal :
  let s := json_text "{'type':'ping','id':NaN}" in
  exists a,
    @OperationMessage.loads sample_json s = Ok a
    /\ OperationMessage.__eq__ a a = false.
Proof. eexists. split; reflexivity. Qed.

(** * Further properties of the module *)

(** ** Python equality is symmetric *)

Lemma Qeq_bool_sym (a b : Q) : Qeq_bool a b = Qeq_bool b a.
Proof.
  destruct (Qeq_bool a b) eqn:Hab; symmetry.
  - apply Qeq_bool_iff. symmetry. apply Qeq_bool_iff. exact Hab.
  - apply not_true_iff_false. intros Hba. apply not_true_iff_false in Hab. apply Hab.
    apply Qeq_bool_iff. symmetry. apply Qeq_bool_iff. exact Hba.
Qed.

Lemma number_eq_sym (x y : number) : number_eq x y = number_eq y x.
Proof.
  destruct x as [a | f], y as [b | g]; cbn [number_eq]; try reflexivity.
  - apply Z.eqb_sym.
  - destruct f as [p | m | i], g as [q | n | j]; cbn [float_eq]; try reflexivity.
    + apply Qeq_bool_sym.
    + destruct m, n; reflexivity.
Qed.

Lemma same_nan_object_sym (v w : value) : same_nan_object v w = same_nan_object w v.
Proof.
  destruct v as [| | | [? | ? | i] | | |], w as [| | | [? | ? | j] | | |];
    cbn [same_nan_object]; try reflexivity.
  apply Nat.eqb_sym.
Qed.

Lemma same_mapping_sym (a b : dict) :
  (forall key v1 v2,
      dict_lookup a key = Some v1 -> dict_lookup b key = Some v2 ->
      RichCompareBool_EQ v1 v2 = RichCompareBool_EQ v2 v1) ->
  same_mapping a b <-> same_mapping b a.
Proof.
  intros Hsym. unfold same_mapping.
  split; intros Hsame key; specialize (Hsame key); specialize (Hsym key);
    destruct (dict_lookup a key) as [v1|], (dict_lookup b key) as [v2|];
    try exact Hsame.
  - rewrite <- (Hsym v1 v2 eq_refl eq_refl). exact Hsame.
  - rewrite (Hsym v1 v2 eq_refl eq_refl). exact Hsame.
Qed.

Lemma py_eq_sym (v : value) :
  dict_keys_unique v = true ->
  forall w, dict_keys_unique w = true -> py_eq v w = py_eq w v.
Proof.
  induction v as [| b | n | f | s | items IH | entries IH] using value_ind;
    intros Hv w Hw.
  - destruct w; reflexivity.
  - destruct w; try reflexivity; cbn [py_eq as_number]; apply number_eq_sym.
  - destruct w; try reflexivity; cbn [py_eq as_number]; apply number_eq_sym.
  - destruct w; try reflexivity; cbn [py_eq as_number]; apply number_eq_sym.
  - destruct w; try reflexivity. cbn [py_eq]. apply String.eqb_sym.
  - destruct w as [| | | | | others |]; try reflexivity.
    rewrite !py_eq_list. cbn [dict_keys_unique] in Hv, Hw.
    revert others Hw.
    induction IH as [|x items Hx _ IHitems]; intros [|y others] Hw; try reflexivity.
    cbn [forallb] in Hv, Hw. apply andb_true_iff in Hv, Hw.
    destruct Hv as [Hvx Hvitems], Hw as [Hwy Hwothers].
    cbn [list_equal]. unfold RichCompareBool_EQ.
    rewrite (same_nan_object_sym x y), (Hx Hvx y Hwy), (IHitems Hvitems others Hwothers).
    reflexivity.
  - destruct w as [| | | | | | others]; try reflexivity.
    rewrite !py_eq_dict. cbn [dict_keys_unique] in Hv, Hw.
    apply andb_true_iff in Hv, Hw.
    destruct Hv as [Hka Hva], Hw as [Hkb Hvb].
    apply distinct_NoDup in Hka, Hkb. rewrite forallb_forall in Hva, Hvb.
    rewrite Forall_forall in IH.
    apply eq_true_iff_eq.
    rewrite (dict_equal_same_mapping entries others Hka Hkb).
    rewrite (dict_equal_same_mapping others entries Hkb Hka).
    apply same_mapping_sym. intros key v1 v2 H1 H2.
    apply dict_lookup_In in H1, H2. unfold RichCompareBool_EQ.
    rewrite (same_nan_object_sym v1 v2).
    pose proof (IH _ H1 (Hva _ H1) v2 (Hvb _ H2)) as Hs. cbn [snd] in Hs.
    rewrite Hs. reflexivity.
Qed.

(** ** Dicts: order of the keys, and construction from pairs *)

Lemma dict_lookup_Permutation (d d' : dict) (key : string) :
  NoDup (dict_keys d) -> Permutation d d' -> dict_lookup d key = dict_lookup d' key.
Proof.
  intros Hd Hperm.
  assert (Hd' : NoDup (dict_keys d')).
  { apply (Permutation_NoDup (l := dict_keys d)); [|exact Hd].
    unfold dict_keys. apply Permutation_map. exact Hperm. }
  destruct (dict_lookup d key) as [v|] eqn:Hv; symmetry.
  - apply In_dict_lookup; [exact Hd'|].
    apply (Permutation_in _ Hperm). exact (dict_lookup_In _ _ _ Hv).
  - apply dict_lookup_None. apply dict_lookup_None in Hv. intros Hin. apply Hv.
    apply (Permutation_in (l := dict_keys d')); [|exact Hin].
    unfold dict_keys. apply Permutation_map. symmetry. exact Hperm.
Qed.

Lemma dict_setitem_new (d : dict) (key : string) (v : value) :
  ~ In key (dict_keys d) -> dict_setitem d key v = d ++ [(key, v)].
Proof.
  unfold dict_keys.
  induction d as [|[k x] d IH]; cbn [dict_setitem map fst In app]; intros Hnew.
  - reflexivity.
  - destruct (String.eqb k key) eqn:Hk.
    + apply String.eqb_eq in Hk. elim Hnew. left. exact Hk.
    + rewrite IH; [reflexivity|]. intros Hin. apply Hnew. right. exact Hin.
Qed.

Lemma dict_of_items_distinct (pairs : list (string * value)) :
  NoDup (dict_keys pairs) -> dict_of_items pairs = pairs.
Proof.
  unfold dict_of_items.
  assert (Hgen : forall (acc : dict),
             NoDup (dict_keys (acc ++ pairs)) ->
             fold_left (fun d kv => dict_setitem d (fst kv) (snd kv)) pairs acc
             = acc ++ pairs).
  { induction pairs as [|[k x] pairs IH]; intros acc Hnd; cbn [fold_left fst snd].
    - rewrite app_nil_r. reflexivity.
    - assert (Hacc : acc ++ (k, x) :: pairs = (acc ++ [(k, x)]) ++ pairs)
        by (rewrite <- app_assoc; reflexivity).
      rewrite dict_setitem_new.
      + rewrite IH; [symmetry; exact Hacc|]. rewrite <- Hacc. exact Hnd.
      + unfold dict_keys in Hnd |- *. rewrite map_app in Hnd. cbn [map fst] in Hnd.
        apply NoDup_remove_2 in Hnd. intros Hin. apply Hnd.
        apply in_or_app. left. exact Hin. }
  intros Hnd. exact (Hgen [] Hnd).
Qed.

(** ** GQLMsgType: no coercion *)

Lemma GQLMsgType_call_Ok (v : value) (member : GQLMsgType) :
  GQLMsgType_call v = Ok member <-> v = VStr (GQLMsgType_value member).
Proof.
  split.
  - unfold GQLMsgType_call.
    destruct (find _ GQLMsgType_members) as [found|] eqn:Hfind; [|discriminate].
    intros [= ->]. apply find_some in Hfind. destruct Hfind as [_ Heq].
    destruct v; cbn in Heq; try discriminate.
    apply String.eqb_eq in Heq. subst s. reflexivity.
  - intros ->. destruct member; reflexivity.
Qed.

(** X1. A message kind is constructed from a value exactly when the value is
    the string of that kind: nothing is coerced (a number, a boolean, null, a
    string in another case or with blanks around it are all refused), and two
    kinds never share a string. *)
Theorem X1_message_kind_exact :
  (forall v member,
      GQLMsgType_call v = Ok member <-> v = VStr (GQLMsgType_value member))
  /\ (forall a b, GQLMsgType_value a = GQLMsgType_value b -> a = b).
Proof.
  split.
  - exact GQLMsgType_call_Ok.
  - intros a b Hab.
    assert (Ha : GQLMsgType_call (VStr (GQLMsgType_value a)) = Ok a)
      by (apply GQLMsgType_call_Ok; reflexivity).
    rewrite Hab in Ha. apply GQLMsgType_call_Ok in Ha.
    destruct a, b; try reflexivity; discriminate Ha.
Qed.

(** ** OperationMessage: what load checks, in which order, and what it keeps *)

Lemma payload_init_dict (d : dict) :
  OperationMessagePayload.__init__ (VDict d)
  = Ok {| OperationMessagePayload._payload := d |}.
Proof.
  destruct d; reflexivity.
Qed.



(** X3. load succeeds exactly when "type" is the string of a kind and
    "payload" is an object, null or missing.  The message then has that kind,
    the value of "id" as it stands (any JSON value, None when missing) and the
    payload object as its mapping (the empty mapping for null or missing). *)
Theorem X3_load_success (d : dict) (m : OperationMessage.t) :
  OperationMessage.load (VDict d) = Ok m <->
  dict_get d "type" = VStr (GQLMsgType_value (OperationMessage.type m))
  /\ OperationMessage.id m = dict_get d "id"
  /\ (dict_get d "payload"
      = VDict (OperationMessagePayload._payload (OperationMessage.payload m))
      \/ (dict_get d "payload" = VNone
          /\ OperationMessagePayload._payload (OperationMessage.payload m) = [])).
Proof.
  cbn [OperationMessage.load]. unfold OperationMessage.__init__. split.
  - destruct (GQLMsgType_call _) as [kind|] eqn:Hkind; [|discriminate].
    apply GQLMsgType_call_Ok in Hkind.
    destruct (dict_get d "payload") as [| | | | | |pm] eqn:Hp; try discriminate.
    + intros [= <-]. cbn. auto.
    + rewrite payload_init_dict. intros [= <-]. cbn. auto.
  - destruct m as [kind ident [pm]].
    cbn [OperationMessage.type OperationMessage.id OperationMessage.payload
         OperationMessage._type OperationMessage._id OperationMessage._payload
         OperationMessagePayload._payload].
    intros [Hkind [-> Hp]]. apply GQLMsgType_call_Ok in Hkind. rewrite Hkind.
    destruct Hp as [-> | [-> ->]]; [rewrite payload_init_dict|]; reflexivity.
Qed.

(** X4. load reads the fields "type", "id" and "payload" and nothing else:
    two envelopes that agree on these three give the same outcome, so unknown
    fields are ignored, and so is the order in which the fields come. *)
Theorem X4_load_reads_three_fields (d d' : dict) :
  (dict_lookup d "type" = dict_lookup d' "type" ->
   dict_lookup d "id" = dict_lookup d' "id" ->
   dict_lookup d "payload" = dict_lookup d' "payload" ->
   OperationMessage.load (VDict d) = OperationMessage.load (VDict d'))
  /\ (NoDup (dict_keys d) -> Permutation d d' ->
      OperationMessage.load (VDict d) = OperationMessage.load (VDict d')).
Proof.
  assert (Hthree : dict_lookup d "type" = dict_lookup d' "type" ->
                   dict_lookup d "id" = dict_lookup d' "id" ->
                   dict_lookup d "payload" = dict_lookup d' "payload" ->
                   OperationMessage.load (VDict d) = OperationMessage.load (VDict d')).
  { intros Ht Hi Hp. cbn [OperationMessage.load]. unfold dict_get.
    rewrite Ht, Hi, Hp. reflexivity. }
  split; [exact Hthree|].
  intros Hd Hperm. apply Hthree; apply dict_lookup_Permutation; assumption.
Qed.

Lemma X4_load_reads_three_fields_witness :
  OperationMessage.load
    (VDict [("type", VStr "complete"); ("id", VStr "7"); ("extensions", VDict [])])
  = OperationMessage.load (VDict [("id", VStr "7"); ("type", VStr "complete")]).
Proof.
  apply (proj1 (X4_load_reads_three_fields
                  [("type", VStr "complete"); ("id", VStr "7"); ("extensions", VDict [])]
                  [("id", VStr "7"); ("type", VStr "complete")]));
    reflexivity.
Defined.

(** X5. Every message is what load builds from the envelope that holds its
    three fields: the string of its kind under "type", its id under "id" and
    its payload mapping under "payload". *)
Theorem X5_load_of_fields (m : OperationMessage.t) :
  OperationMessage.load
    (VDict [("type", VStr (GQLMsgType_value (OperationMessage.type m)));
            ("id", OperationMessage.id m);
            ("payload",
             VDict (OperationMessagePayload._payload (OperationMessage.payload m)))])
  = Ok m.
Proof.
  destruct m as [kind ident [pm]].
  cbn [OperationMessage.load dict_get dict_lookup String.eqb Ascii.eqb Bool.eqb
       OperationMessage.type OperationMessage.id OperationMessage.payload
       OperationMessage._type OperationMessage._id OperationMessage._payload
       OperationMessagePayload._payload].
  unfold OperationMessage.__init__.
  rewrite (proj2 (GQLMsgType_call_Ok _ kind) eq_refl), payload_init_dict.
  reflexivity.
Qed.


(** ** Payload: the mapping protocol *)

(** X7. get and the bracket index agree on every key that is present, and
    get never raises.  A None from get is ambiguous: it stands for a missing
    key and for a key bound to null alike; containment tells the two apart. *)
Theorem X7_get_none_is_ambiguous (p : OperationMessagePayload.t) (key : string) :
  (forall v,
      OperationMessagePayload.__getitem__ p key = Ok v ->
      OperationMessagePayload.get p key = Ok v
      /\ OperationMessagePayload.__contains__ p key = Ok true)
  /\ (OperationMessagePayload.get p key = Ok VNone <->
      OperationMessagePayload.__contains__ p key = Ok false
      \/ OperationMessagePayload.__getitem__ p key = Ok VNone)
  /\ (exists v, OperationMessagePayload.get p key = Ok v).
Proof.
  unfold OperationMessagePayload.get, OperationMessagePayload.__contains__,
    OperationMessagePayload.__getitem__.
  destruct (dict_lookup (OperationMessagePayload._payload p) key) as [x|].
  - split; [|split].
    + intros v [= ->]. split; reflexivity.
    + split; [intros [= ->]; right; reflexivity|].
      intros [Hno | [= ->]]; [discriminate Hno | reflexivity].
    + exists x. reflexivity.
  - split; [|split].
    + intros v Hv. discriminate Hv.
    + split; [intros _; left; reflexivity | reflexivity].
    + exists VNone. reflexivity.
Qed.

Lemma items_at_present (p : OperationMessagePayload.t) (ks : list string) :
  incl ks (OperationMessagePayload.__iter__ p) ->
  OperationMessagePayload.items_at p ks
  = Ok (map (fun key => (key, dict_get (OperationMessagePayload._payload p) key)) ks).
Proof.
  unfold OperationMessagePayload.__iter__.
  induction ks as [|key ks IH]; intros Hincl; cbn [OperationMessagePayload.items_at map].
  - reflexivity.
  - unfold OperationMessagePayload.__getitem__, dict_get.
    destruct (In_keys_dict_lookup (OperationMessagePayload._payload p) key) as [v Hv].
    { apply Hincl. left. reflexivity. }
    rewrite Hv, IH; [reflexivity|].
    intros k Hk. apply Hincl. right. exact Hk.
Qed.

Lemma entries_of_keys (d : dict) :
  NoDup (dict_keys d) ->
  map (fun key => (key, dict_get d key)) (dict_keys d) = d.
Proof.
  intros Hd.
  assert (Hgen : forall part, incl part d ->
             map (fun key => (key, dict_get d key)) (dict_keys part) = part).
  { induction part as [|[k x] part IH]; intros Hincl; cbn [dict_keys map fst].
    - reflexivity.
    - unfold dict_get at 1.
      rewrite (In_dict_lookup d k x Hd (Hincl _ (or_introl eq_refl))).
      unfold dict_keys in IH. rewrite IH; [reflexivity|].
      intros kv Hkv. apply Hincl. right. exact Hkv. }
  apply Hgen. apply incl_refl.
Qed.

(** X8. The views of a payload never raise: items() lists the entries of the
    wrapped dict in insertion order, values() their values and keys() their
    keys; and comparing two payloads as collections.abc does, through
    dict(self.items()) and dict(other.items()), is comparing the two wrapped
    dicts. *)
Theorem X8_views_of_the_wrapped_dict (p q : OperationMessagePayload.t) :
  NoDup (OperationMessagePayload.__iter__ p) ->
  NoDup (OperationMessagePayload.__iter__ q) ->
  OperationMessagePayload.items p = Ok (OperationMessagePayload._payload p)
  /\ OperationMessagePayload.values p
     = Ok (map snd (OperationMessagePayload._payload p))
  /\ OperationMessagePayload.keys p
     = map fst (OperationMessagePayload._payload p)
  /\ OperationMessagePayload.Mapping__eq__ p q
     = Ok (OperationMessagePayload.__eq__ p q).
Proof.
  intros Hp Hq.
  assert (Hitems : forall r,
             NoDup (OperationMessagePayload.__iter__ r) ->
             OperationMessagePayload.items r = Ok (OperationMessagePayload._payload r)).
  { intros r Hr. unfold OperationMessagePayload.items.
    rewrite items_at_present by apply incl_refl.
    unfold OperationMessagePayload.__iter__ in *. rewrite entries_of_keys by exact Hr.
    reflexivity. }
  unfold OperationMessagePayload.values, OperationMessagePayload.Mapping__eq__.
  rewrite (Hitems p Hp), (Hitems q Hq).
  unfold OperationMessagePayload.__iter__ in Hp, Hq.
  rewrite !dict_of_items_distinct by assumption.
  repeat split.
Qed.

Lemma X8_views_of_the_wrapped_dict_witness :
  let p := {| OperationMessagePayload._payload :=
                [("query", VStr "{a}"); ("variables", VDict [("n", VInt 1)])] |} in
  let q := {| OperationMessagePayload._payload :=
                [("variables", VDict [("n", VFloat (FFinite 1))]); ("query", VStr "{a}")] |} in
  OperationMessagePayload.items p
  = Ok [("query", VStr "{a}"); ("variables", VDict [("n", VInt 1)])]
  /\ OperationMessagePayload.Mapping__eq__ p q = Ok true.
Proof.
  intros p q.
  assert (Hp : NoDup (OperationMessagePayload.__iter__ p))
    by (apply distinct_NoDup; reflexivity).
  assert (Hq : NoDup (OperationMessagePayload.__iter__ q))
    by (apply distinct_NoDup; reflexivity).
  destruct (X8_views_of_the_wrapped_dict p q Hp Hq) as [Hitems [_ [_ Heq]]].
  split; [exact Hitems | exact Heq].
Defined.

(** ** Payload: what the derived properties depend on, and what they cost *)

Section Derived.
Context `{GraphQLLibrary}.
Import OperationMessagePayload.
Local Open Scope traced_scope.

Implicit Types (p : OperationMessagePayload.t) (log : list library_call).

(** X9. The document and the subscription test of a payload depend on what
    is bound to "query" and on nothing else: two payloads that bind "query"
    alike get the same answers, whatever else they hold ("variables" and
    "operationName" included) and whatever was parsed before. *)
Theorem X9_only_the_query_counts p p' log log' :
  dict_lookup (_payload p) "query" = dict_lookup (_payload p') "query" ->
  returns (document p) log = returns (document p') log'
  /\ returns (has_subscription_operation p) log
     = returns (has_subscription_operation p') log'.
Proof.
  intros Hquery. unfold returns.
  rewrite !has_subscription_operation_run, !document_run. cbn [fst].
  unfold dict_get. rewrite Hquery. split; reflexivity.
Qed.

(** X10. One access to has_subscription_operation is one run of the parser,
    on the value bound to "query", and builds no Source; nothing is kept
    between accesses, so the document and then the subscription test parse the
    same query twice. *)
Theorem X10_subscription_test_parses_once p log :
  calls_after (has_subscription_operation p) log
  = log ++ [parse_call (dict_get (_payload p) "query")]
  /\ calls_after (_ <- document p ;; has_subscription_operation p) log
     = log ++ [parse_call (dict_get (_payload p) "query");
               parse_call (dict_get (_payload p) "query")]
  /\ (forall text,
        In (Source_call text) (calls_after (has_subscription_operation p) log) ->
        In (Source_call text) log).
Proof.
  unfold calls_after, bind.
  split; [|split].
  - rewrite has_subscription_operation_run, document_run. reflexivity.
  - rewrite document_run, has_subscription_operation_run, document_run.
    cbn [snd]. rewrite <- app_assoc. reflexivity.
  - intros text. rewrite has_subscription_operation_run, document_run. cbn [snd].
    intros Hin. apply in_app_or in Hin. destruct Hin as [Hin | [Hin | []]].
    + exact Hin.
    + discriminate Hin.
Qed.

(** X11. A message loaded from an envelope whose payload is missing or null
    (a ping, a pong, an acknowledgement) has an empty payload: its query,
    variables and operation name are None, it has no document, and it is no
    subscription, whatever the grammar. *)
Theorem X11_no_payload_no_subscription (d : dict) (m : OperationMessage.t) log :
  OperationMessage.load (VDict d) = Ok m ->
  dict_get d "payload" = VNone ->
  __len__ (OperationMessage.payload m) = 0
  /\ query (OperationMessage.payload m) = Ok VNone
  /\ variable_values (OperationMessage.payload m) = Ok VNone
  /\ operation_name (OperationMessage.payload m) = Ok VNone
  /\ returns (document (OperationMessage.payload m)) log = None
  /\ returns (has_subscription_operation (OperationMessage.payload m)) log = false.
Proof.
  intros Hload Hnone. cbn [OperationMessage.load] in Hload.
  unfold OperationMessage.__init__ in Hload. rewrite Hnone in Hload.
  destruct (GQLMsgType_call _) as [kind|]; [|discriminate].
  cbn in Hload. injection Hload as <-.
  unfold returns. rewrite has_subscription_operation_run, document_run.
  repeat split.
Qed.
End Derived.

Lemma X9_only_the_query_counts_witness :
  let text := "subscription { onThing }" in
  let p := {| OperationMessagePayload._payload := [("query", VStr text)] |} in
  let p' := {| OperationMessagePayload._payload :=
                 [("operationName", VStr "Other"); ("query", VStr text);
                  ("variables", VDict [])] |} in
  returns (@OperationMessagePayload.has_subscription_operation sample_graphql p) []
  = returns (@OperationMessagePayload.has_subscription_operation sample_graphql p') [].
Proof.
  intros text p p'.
  exact (proj2 (@X9_only_the_query_counts sample_graphql p p' [] [] eq_refl)).
Defined.

Lemma X11_no_payload_no_subscription_witness :
  let d := [("type", VStr "ping")] in
  let m := {| OperationMessage._type := PING;
              OperationMessage._id := VNone;
              OperationMessage._payload :=
                {| OperationMessagePayload._payload := [] |} |} in
  returns (@OperationMessagePayload.has_subscription_operation sample_graphql
             (OperationMessage.payload m)) []
  = false.
Proof.
  intros d m.
  exact (proj2 (proj2 (proj2 (proj2 (proj2
           (@X11_no_payload_no_subscription sample_graphql d m [] eq_refl eq_refl)))))).
Defined.

(** ** OperationMessage: equality as a relation *)

(** X12. Equality of messages is symmetric: a == b and b == a give the same
    answer. *)
Theorem X12_message_equality_symmetric (a b : OperationMessage.t) :
  dict_keys_unique (OperationMessage.id a) = true ->
  dict_keys_unique (OperationMessage.id b) = true ->
  dict_keys_unique
    (VDict (OperationMessagePayload._payload (OperationMessage.payload a))) = true ->
  dict_keys_unique
    (VDict (OperationMessagePayload._payload (OperationMessage.payload b))) = true ->
  OperationMessage.__eq__ a b = OperationMessage.__eq__ b a.
Proof.
  intros Hia Hib Hpa Hpb.
  unfold OperationMessage.__eq__, all, OperationMessagePayload.__eq__.
  cbn [forallb].
  rewrite (py_eq_sym _ Hia _ Hib).
  rewrite <- !py_eq_dict. rewrite (py_eq_sym _ Hpa _ Hpb).
  f_equal. unfold GQLMsgType_eq.
  destruct (GQLMsgType_eq_dec _ _) as [Hab | Hab], (GQLMsgType_eq_dec _ _) as [Hba | Hba];
    congruence.
Qed.

Lemma X12_message_equality_symmetric_witness :
  let a := {| OperationMessage._type := NEXT;
              OperationMessage._id := VInt 1;
              OperationMessage._payload :=
                {| OperationMessagePayload._payload := [("data", VList [VNone])] |} |} in
  let b := {| OperationMessage._type := NEXT;
              OperationMessage._id := VBool true;
              OperationMessage._payload :=
                {| OperationMessagePayload._payload := [("data", VList [VNone])] |} |} in
  OperationMessage.__eq__ a b = OperationMessage.__eq__ b a.
Proof.
  intros a b.
  apply (X12_message_equality_symmetric a b); reflexivity.
Defined.

(** X13. A message is equal to itself exactly when its id is: always, except
    for an id that is a NaN number, which makes the message unequal to every
    message, itself included. *)
Theorem X13_message_equal_to_itself (a : OperationMessage.t) :
  dict_keys_unique (OperationMessage.id a) = true ->
  dict_keys_unique
    (VDict (OperationMessagePayload._payload (OperationMessage.payload a))) = true ->
  OperationMessage.__eq__ a a = py_eq (OperationMessage.id a) (OperationMessage.id a)
  /\ ((forall obj, OperationMessage.id a <> VFloat (FNaN obj)) ->
      OperationMessage.__eq__ a a = true)
  /\ (forall obj b,
        OperationMessage.id a = VFloat (FNaN obj) ->
        OperationMessage.__eq__ a b = false).
Proof.
  intros Hid Hpayload.
  assert (Hself : OperationMessage.__eq__ a a
                  = py_eq (OperationMessage.id a) (OperationMessage.id a)).
  { unfold OperationMessage.__eq__, all, OperationMessagePayload.__eq__.
    cbn [forallb]. rewrite <- py_eq_dict.
    pose proof (RichCompareBool_EQ_refl _ Hpayload) as Hrefl.
    unfold RichCompareBool_EQ in Hrefl. cbn [same_nan_object orb] in Hrefl.
    rewrite Hrefl. unfold GQLMsgType_eq.
    destruct (GQLMsgType_eq_dec _ _) as [_ | Hne]; [|elim Hne; reflexivity].
    cbn [andb]. rewrite andb_true_r. reflexivity. }
  split; [exact Hself|split].
  - intros Hnan. rewrite Hself. apply py_eq_refl; assumption.
  - intros obj b Hnan. unfold OperationMessage.__eq__, all. cbn [forallb].
    rewrite Hnan.
    assert (Hno : py_eq (VFloat (FNaN obj)) (OperationMessage.id b) = false)
      by (destruct (OperationMessage.id b) as [| | | [q | neg | j] | | |]; reflexivity).
    rewrite Hno. destruct (GQLMsgType_eq _ _); reflexivity.
Qed.

Lemma X13_message_equal_to_itself_witness :
  let a := {| OperationMessage._type := PING;
              OperationMessage._id := VFloat (FNaN 0);
              OperationMessage._payload :=
                {| OperationMessagePayload._payload := [] |} |} in
  OperationMessage.__eq__ a a = false.
Proof.
  intros a.
  exact (proj2 (proj2 (X13_message_equal_to_itself a eq_refl eq_refl)) 0 a eq_refl).
Defined.

(** ** Python equality is transitive *)

Lemma number_eq_trans (x y z : number) :
  number_eq x y = true -> number_eq y z = true -> number_eq x z = true.
Proof.
  destruct x as [a | [p | m | i]], y as [b | [q | n | j]], z as [c | [r | o | k]];
    cbn [number_eq int_float_eq float_eq]; try discriminate;
    rewrite ?Z.eqb_eq, ?Qeq_bool_iff, ?eqb_true_iff; intros H1 H2;
    try congruence;
    try match goal with |- @eq Z _ _ => apply inject_Z_injective end;
    solve [ rewrite H1; exact H2
          | rewrite H1; symmetry; exact H2
          | rewrite <- H1; exact H2
          | rewrite <- H1; symmetry; exact H2
          | rewrite H2; exact H1
          | rewrite <- H2; exact H1
          | rewrite <- H2; symmetry; exact H1
          | rewrite H2; symmetry; exact H1 ].
Qed.

Lemma same_nan_object_inv (v w : value) :
  same_nan_object v w = true ->
  exists obj, v = VFloat (FNaN obj) /\ w = VFloat (FNaN obj).
Proof.
  destruct v as [| | | [? | ? | i] | | |], w as [| | | [? | ? | j] | | |];
    cbn [same_nan_object]; try discriminate.
  intros Hij. apply Nat.eqb_eq in Hij. subst j. exists i. split; reflexivity.
Qed.

Lemma RichCompareBool_EQ_number (u v : value) (x : number) :
  as_number u = Some x ->
  RichCompareBool_EQ u v = true ->
  exists y, as_number v = Some y
            /\ (same_nan_object u v = true \/ number_eq x y = true).
Proof.
  unfold RichCompareBool_EQ. intros Hx Huv. apply orb_true_iff in Huv.
  destruct Huv as [Hnan | Heq].
  - destruct (same_nan_object_inv _ _ Hnan) as [obj [_ ->]].
    eexists. split; [reflexivity | left; exact Hnan].
  - destruct u; try discriminate; cbn [py_eq] in Heq; rewrite Hx in Heq;
      destruct (as_number v) as [y|]; try discriminate;
      exists y; split; try reflexivity; right; exact Heq.
Qed.

Lemma number_eq_nan (x : number) (obj : nat) :
  number_eq x (NFloat (FNaN obj)) = false /\ number_eq (NFloat (FNaN obj)) x = false.
Proof.
  destruct x as [a | [q | neg | j]]; split; reflexivity.
Qed.

Lemma same_mapping_trans (a b c : dict) :
  (forall key v1 v2 v3,
      dict_lookup a key = Some v1 -> dict_lookup b key = Some v2 ->
      dict_lookup c key = Some v3 ->
      RichCompareBool_EQ v1 v2 = true -> RichCompareBool_EQ v2 v3 = true ->
      RichCompareBool_EQ v1 v3 = true) ->
  same_mapping a b -> same_mapping b c -> same_mapping a c.
Proof.
  unfold same_mapping. intros Htrans Hab Hbc key.
  specialize (Hab key). specialize (Hbc key). specialize (Htrans key).
  destruct (dict_lookup a key) as [v1|], (dict_lookup b key) as [v2|],
    (dict_lookup c key) as [v3|]; try contradiction; try exact I.
  exact (Htrans v1 v2 v3 eq_refl eq_refl eq_refl Hab Hbc).
Qed.

Lemma RichCompareBool_EQ_trans (u : value) :
  dict_keys_unique u = true ->
  forall v w,
    dict_keys_unique v = true -> dict_keys_unique w = true ->
    RichCompareBool_EQ u v = true -> RichCompareBool_EQ v w = true ->
    RichCompareBool_EQ u w = true.
Proof.
  assert (Hnumber : forall t x, as_number t = Some x ->
            forall v w, RichCompareBool_EQ t v = true -> RichCompareBool_EQ v w = true ->
                        RichCompareBool_EQ t w = true).
  { intros t x Hx v w Huv Hvw.
    destruct (RichCompareBool_EQ_number t v x Hx Huv) as [y [Hy Hxy]].
    destruct (RichCompareBool_EQ_number v w y Hy Hvw) as [z [Hz Hyz]].
    destruct Hxy as [Hnan1 | Hxy], Hyz as [Hnan2 | Hyz].
    - destruct (same_nan_object_inv _ _ Hnan1) as [i [-> ->]].
      destruct (same_nan_object_inv _ _ Hnan2) as [j [[= <-] ->]].
      exact Huv.
    - destruct (same_nan_object_inv _ _ Hnan1) as [i [_ ->]].
      cbn in Hy. injection Hy as <-.
      rewrite (proj2 (number_eq_nan z i)) in Hyz. discriminate.
    - destruct (same_nan_object_inv _ _ Hnan2) as [i [-> _]].
      cbn in Hy. injection Hy as <-.
      rewrite (proj1 (number_eq_nan x i)) in Hxy. discriminate.
    - pose proof (number_eq_trans x y z Hxy Hyz) as Hxz.
      unfold RichCompareBool_EQ. apply orb_true_iff. right.
      destruct t; try discriminate; cbn [py_eq]; rewrite Hx, Hz; exact Hxz. }
  induction u as [| b | n | f | s | items IH | entries IH] using value_ind;
    intros Hu v w Hv Hw Huv Hvw.
  - destruct v; try discriminate. exact Hvw.
  - exact (Hnumber (VBool b) _ eq_refl v w Huv Hvw).
  - exact (Hnumber (VInt n) _ eq_refl v w Huv Hvw).
  - exact (Hnumber (VFloat f) _ eq_refl v w Huv Hvw).
  - destruct v as [| | | | t | |]; try discriminate.
    unfold RichCompareBool_EQ in Huv. cbn in Huv. apply String.eqb_eq in Huv.
    subst t. exact Hvw.
  - destruct v as [| | | | | middle |]; try discriminate.
    destruct w as [| | | | | others |]; try discriminate.
    unfold RichCompareBool_EQ in *. cbn [same_nan_object orb] in *.
    rewrite py_eq_list in *. cbn [dict_keys_unique] in Hu, Hv, Hw.
    revert middle others Hv Hw Huv Hvw.
    induction IH as [|x items Hx _ IHitems];
      intros [|y middle] [|z others] Hv Hw Huv Hvw; try discriminate; [reflexivity|].
    cbn [forallb] in Hu, Hv, Hw. apply andb_true_iff in Hu, Hv, Hw.
    cbn [list_equal] in *. apply andb_true_iff in Huv, Hvw. apply andb_true_iff.
    destruct Hu as [Hux Hu], Hv as [Hvy Hv], Hw as [Hwz Hw].
    destruct Huv as [Hxy Huv], Hvw as [Hyz Hvw]. split.
    + exact (Hx Hux y z Hvy Hwz Hxy Hyz).
    + exact (IHitems Hu middle others Hv Hw Huv Hvw).
  - destruct v as [| | | | | | middle]; try discriminate.
    destruct w as [| | | | | | others]; try discriminate.
    unfold RichCompareBool_EQ in Huv, Hvw |- *. cbn [same_nan_object orb] in *.
    rewrite py_eq_dict in *. cbn [dict_keys_unique] in Hu, Hv, Hw.
    apply andb_true_iff in Hu, Hv, Hw.
    destruct Hu as [Hka Hva], Hv as [Hkb Hvb], Hw as [Hkc Hvc].
    apply distinct_NoDup in Hka, Hkb, Hkc. rewrite forallb_forall in Hva, Hvb, Hvc.
    rewrite Forall_forall in IH.
    apply (dict_equal_same_mapping entries middle Hka Hkb) in Huv.
    apply (dict_equal_same_mapping middle others Hkb Hkc) in Hvw.
    apply (dict_equal_same_mapping entries others Hka Hkc).
    apply (same_mapping_trans entries middle others); [|exact Huv|exact Hvw].
    intros key v1 v2 v3 H1 H2 H3.
    apply dict_lookup_In in H1, H2, H3.
    exact (IH _ H1 (Hva _ H1) v2 v3 (Hvb _ H2) (Hvc _ H3)).
Qed.

Lemma py_eq_trans (u v w : value) :
  dict_keys_unique u = true -> dict_keys_unique v = true -> dict_keys_unique w = true ->
  py_eq u v = true -> py_eq v w = true -> py_eq u w = true.
Proof.
  intros Hu Hv Hw Huv Hvw.
  assert (Huw : RichCompareBool_EQ u w = true).
  { apply (RichCompareBool_EQ_trans u Hu v w Hv Hw); unfold RichCompareBool_EQ;
      [rewrite Huv | rewrite Hvw]; apply orb_true_r. }
  unfold RichCompareBool_EQ in Huw. apply orb_true_iff in Huw.
  destruct Huw as [Hnan | Heq]; [|exact Heq].
  destruct (same_nan_object_inv _ _ Hnan) as [obj [-> _]].
  destruct v as [| | | [q | neg | j] | | |]; discriminate Huv.
Qed.

(** X14. Equality of messages is transitive: when a == b and b == c, then
    a == c. *)
Theorem X14_message_equality_transitive (a b c : OperationMessage.t) :
  dict_keys_unique (OperationMessage.id a) = true ->
  dict_keys_unique (OperationMessage.id b) = true ->
  dict_keys_unique (OperationMessage.id c) = true ->
  dict_keys_unique
    (VDict (OperationMessagePayload._payload (OperationMessage.payload a))) = true ->
  dict_keys_unique
    (VDict (OperationMessagePayload._payload (OperationMessage.payload b))) = true ->
  dict_keys_unique
    (VDict (OperationMessagePayload._payload (OperationMessage.payload c))) = true ->
  OperationMessage.__eq__ a b = true ->
  OperationMessage.__eq__ b c = true ->
  OperationMessage.__eq__ a c = true.
Proof.
  intros Hia Hib Hic Hpa Hpb Hpc Hab Hbc.
  apply message_eq_spec in Hab, Hbc. apply message_eq_spec.
  destruct Hab as [Hk1 [Hi1 Hp1]], Hbc as [Hk2 [Hi2 Hp2]].
  split; [congruence|split].
  - exact (py_eq_trans _ _ _ Hia Hib Hic Hi1 Hi2).
  - rewrite <- py_eq_dict in *.
    exact (py_eq_trans _ _ _ Hpa Hpb Hpc Hp1 Hp2).
Qed.

Lemma X14_message_equality_transitive_witness :
  let message id :=
    {| OperationMessage._type := COMPLETE;
       OperationMessage._id := id;
       OperationMessage._payload := {| OperationMessagePayload._payload := [] |} |} in
  OperationMessage.__eq__ (message (VBool true)) (message (VFloat (FFinite 1))) = true.
Proof.
  intros message.
  apply (X14_message_equality_transitive
           (message (VBool true)) (message (VInt 1)) (message (VFloat (FFinite 1))));
    reflexivity.
Defined.
